(** * Fincalc: the four calculators of the personal finance planner

    A shallow embedding of [fincalc.py].  The script is a Streamlit page
    with four tabs; each tab reads its widgets and computes

    - tab 1: the budget totals                     ([budget_tracker]),
    - tab 2: the time to reach a savings goal      ([savings_goal]),
    - tab 3: the EMI and the amortization schedule ([emi_calculator]),
    - tab 4: the investment growth projection      ([investment_simulator]).

    Widgets, charts and message formatting are left out; what a tab computes
    from the values of its widgets is kept statement by statement.

    Numbers.  Python's [float] is modelled in module [Fincalc] by the real
    numbers: every arithmetic operation is exact.  Exceptions are kept
    ([ZeroDivisionError] of [/] and [**], the failure of [int] on a NaN or an
    infinity that numpy produced).  Module [Binary64] repeats the loan
    calculator on IEEE 754 binary64 numbers (Rocq's primitive floats), for
    the properties that are about rounding. *)

From Stdlib Require Import Reals Lra Lia ZArith String Bool List.
From Stdlib Require Import Floats QArith Qabs.
Import ListNotations.

Set Implicit Arguments.

(** ** Python values and exceptions *)

Module Py.

(** The exceptions the embedded statements can raise.  [ComplexResult] is
    not a Python exception: [x ** y] with [x < 0] and a fractional [y]
    yields a [complex], which this real-valued model does not follow. *)
Inductive exn : Set :=
| ZeroDivisionError
| ValueError
| OverflowError
| IndexError
| ComplexResult.

Inductive result (A : Type) : Type :=
| Ok (a : A)
| Raise (e : exn).

Arguments Ok {A} a.
Arguments Raise {A} e.

Definition bind {A B : Type} (m : result A) (k : A -> result B) : result B :=
  match m with
  | Ok a => k a
  | Raise e => Raise e
  end.

Definition fmap {A B : Type} (f : A -> B) (m : result A) : result B :=
  bind m (fun a => Ok (f a)).

(** [range(lo, hi)] *)
Definition range (lo hi : Z) : list Z :=
  map (fun i => (lo + Z.of_nat i)%Z) (seq 0 (Z.to_nat (hi - lo))).

(** [l[-1]] *)
Definition last_item {A : Type} (l : list A) : result A :=
  match rev l with
  | [] => Raise IndexError
  | x :: _ => Ok x
  end.

End Py.

Import Py.

Declare Scope py_scope.
Delimit Scope py_scope with py.
Notation "x <- m ;; k" := (bind m (fun x => k))
  (at level 61, m at next level, right associativity) : py_scope.

(** [datetime] values are instants counted in microseconds; [timedelta]
    values are durations in microseconds. *)
Definition datetime := Z.
Definition timedelta_days (d : Z) : Z := (d * 86400 * 1000000)%Z.

(** * The calculators over the real numbers *)

Module Fincalc.

Open Scope R_scope.
Open Scope py_scope.

(** ** Arithmetic of Python floats and numpy scalars *)

(** [x / y] on Python floats. *)
Definition float_div (x y : R) : result R :=
  if Req_dec_T y 0 then Raise ZeroDivisionError else Ok (x / y).

(** [x ** n] for a float [x] and an int [n]. *)
Definition float_pow_int (x : R) (n : Z) : result R :=
  if Req_dec_T x 0 then
    if (n <? 0)%Z then Raise ZeroDivisionError else Ok (powerRZ x n)
  else Ok (powerRZ x n).

(** [x ** y] for floats [x] and [y], [y] not an integer (the script's only
    exponent of this kind is [1/12]): a negative [x] gives a complex
    number. *)
Definition float_pow (x y : R) : result R :=
  if Rlt_dec 0 x then Ok (Rpower x y)
  else if Req_dec_T x 0 then
    if Rlt_dec 0 y then Ok 0
    else if Req_dec_T y 0 then Ok 1
    else Raise ZeroDivisionError
  else Raise ComplexResult.

(** A [numpy.float64]: numpy's functions and the arithmetic of its scalars
    raise nothing, they return NaN or an infinity.  (Signed zeros are not
    represented: a quotient by zero takes the sign of its numerator.) *)
Inductive float64 : Set :=
| Finite (x : R)
| PosInf
| NegInf
| NaN.

(** [np.log(x)] *)
Definition np_log (x : R) : float64 :=
  if Rlt_dec 0 x then Finite (ln x)
  else if Req_dec_T x 0 then NegInf
  else NaN.

(** [a / b] on numpy scalars. *)
Definition np_div (a b : float64) : float64 :=
  match a, b with
  | NaN, _ | _, NaN => NaN
  | Finite x, Finite y =>
      if Req_dec_T y 0 then
        if Req_dec_T x 0 then NaN
        else if Rlt_dec 0 x then PosInf else NegInf
      else Finite (x / y)
  | Finite _, (PosInf | NegInf) => Finite 0
  | (PosInf | NegInf), (PosInf | NegInf) => NaN
  | PosInf, Finite y => if Rlt_dec y 0 then NegInf else PosInf
  | NegInf, Finite y => if Rlt_dec y 0 then PosInf else NegInf
  end.

(** [np.ceil(a)] *)
Definition np_ceil (a : float64) : float64 :=
  match a with
  | Finite x => Finite (IZR (Zceil x))
  | _ => a
  end.

(** [int(a)]: truncation towards zero; fails on NaN and on an infinity. *)
Definition py_int (a : float64) : result Z :=
  match a with
  | Finite x => Ok (if Rle_dec 0 x then Zfloor x else Zceil x)
  | PosInf | NegInf => Raise OverflowError
  | NaN => Raise ValueError
  end.

(** ** Tab 1: the budget tracker *)

(** A [dict] with string keys, as the list of its items in insertion
    order. *)
Definition dict := list (string * R).

(** [d[k] = v] *)
Fixpoint dict_set (d : dict) (k : string) (v : R) : dict :=
  match d with
  | [] => [(k, v)]
  | (k', v') :: d' =>
      if String.eqb k' k then (k, v) :: d' else (k', v') :: dict_set d' k v
  end.

Definition dict_values (d : dict) : list R := map snd d.

(** [sum(l)]: the built-in starts from [0] and adds the items from left to
    right. *)
Definition py_sum (l : list R) : R := fold_left Rplus l 0.

Definition expense_categories : dict :=
  [ ("Housing (Rent/Mortgage)"%string, 0);
    ("Utilities"%string, 0);
    ("Food/Groceries"%string, 0);
    ("Transportation"%string, 0);
    ("Entertainment"%string, 0);
    ("Healthcare"%string, 0);
    ("Debt Payments"%string, 0);
    ("Savings"%string, 0);
    ("Other"%string, 0) ].

(** The loop that fills [expenses]; [number_input category default_val] is
    the value of the category's input field. *)
Definition read_expenses (number_input : string -> R -> R) : dict :=
  fold_left
    (fun expenses '(category, default_val) =>
       dict_set expenses category (number_input category default_val))
    expense_categories [].

Record budget_summary : Type := {
  total_expenses : R;
  balance : R
}.

Definition budget_tracker (income : R) (expenses : dict) : budget_summary :=
  let total_expenses := py_sum (dict_values expenses) in
  let balance := income - total_expenses in
  {| total_expenses := total_expenses; balance := balance |}.

(** Line 73: [{k: v for k, v in expenses.items() if v > 0}]. *)
Definition filtered_expenses (expenses : dict) : dict :=
  fold_left
    (fun filtered '(k, v) => if Rlt_dec 0 v then dict_set filtered k v else filtered)
    expenses [].

(** Lines 75-94: the pie and the bar chart over the filtered expenses, or
    a warning when there is none. *)
Inductive expense_distribution : Type :=
| charts (labels : list string) (amounts : list R)
| st_warning (message : string).

Definition expense_charts (expenses : dict) : expense_distribution :=
  match filtered_expenses expenses with
  | [] => st_warning "No expenses entered yet!"
  | filtered => charts (map fst filtered) (dict_values filtered)
  end.

(** ** Tab 2: the savings goal calculator *)

Module SavingsGoal.

(** The variables of the projection loop. *)
Record loop_state : Type := {
  dates : list datetime;
  amounts : list R;
  current_date : datetime;
  current_amount : R
}.

Definition loop_body (monthly_rate monthly_savings : R)
    (s : loop_state) (month : Z) : loop_state :=
  {| dates := dates s ++ [current_date s];
     amounts := amounts s ++ [current_amount s];
     current_date := (current_date s + timedelta_days 30)%Z;
     current_amount := current_amount s * (1 + monthly_rate) + monthly_savings |}.

Record projection : Type := {
  months : Z;
  years : Z;
  remaining_months : Z;
  series : loop_state;
  final_amount : R
}.

(** What the tab shows once the button is pressed. *)
Inductive outcome : Type :=
| st_error (message : string)
| goal_already_reached
| time_to_reach_goal (p : projection).

(** Lines 120-129: the number of months. *)
Definition months_needed (remaining monthly_savings interest_rate inflation_rate : R)
    : result (R * Z) :=
  q <- float_div (1 + interest_rate / 100) (1 + inflation_rate / 100) ;;
  let real_interest_rate := q - 1 in
  let monthly_rate := real_interest_rate / 12 in
  months <-
    (if Req_dec_T monthly_rate 0 then
       m <- float_div remaining monthly_savings ;; Ok (Finite m)
     else
       x <- float_div (monthly_rate * remaining) monthly_savings ;;
       Ok (np_div (np_log (1 + x)) (np_log (1 + monthly_rate)))) ;;
  c <- py_int (np_ceil months) ;;
  Ok (monthly_rate, Z.max 1 c).

Definition savings_goal (now : datetime)
    (goal_amount monthly_savings current_savings interest_rate inflation_rate : R)
    : result outcome :=
  if Rle_dec monthly_savings 0 then
    Ok (st_error "Monthly savings must be greater than 0!")
  else
    let remaining := goal_amount - current_savings in
    if Rle_dec remaining 0 then Ok goal_already_reached
    else
      r <- months_needed remaining monthly_savings interest_rate inflation_rate ;;
      let '(monthly_rate, months) := r in
      let years := (months / 12)%Z in
      let remaining_months := (months mod 12)%Z in
      let s :=
        fold_left (loop_body monthly_rate monthly_savings)
          (range 0 (months + 1))
          {| dates := []; amounts := [];
             current_date := now; current_amount := current_savings |} in
      final_amount <- last_item (amounts s) ;;
      Ok (time_to_reach_goal
            {| months := months; years := years;
               remaining_months := remaining_months;
               series := s; final_amount := final_amount |}).

End SavingsGoal.

(** ** Tab 3: the EMI calculator *)

Module EmiCalculator.

Record loop_state : Type := {
  months : list Z;
  principals : list R;
  interests : list R;
  balances : list R;
  current_balance : R
}.

Definition loop_body (emi monthly_rate : R) (s : loop_state) (month : Z)
    : loop_state :=
  let interest_payment := current_balance s * monthly_rate in
  let principal_payment := emi - interest_payment in
  let current_balance := current_balance s - principal_payment in
  {| months := months s ++ [month];
     principals := principals s ++ [principal_payment];
     interests := interests s ++ [interest_payment];
     balances :=
       balances s ++ [if Rlt_dec 0 current_balance then current_balance else 0];
     current_balance := current_balance |}.

Record loan : Type := {
  monthly_rate : R;
  emi : R;
  total_payment : R;
  total_interest : R;
  schedule : option loop_state
}.

(** Lines 191-194. *)
Definition emi_formula (principal monthly_rate : R) (total_tenure_months : Z)
    : result R :=
  if Req_dec_T monthly_rate 0 then
    float_div principal (IZR total_tenure_months)
  else
    p <- float_pow_int (1 + monthly_rate) total_tenure_months ;;
    p' <- float_pow_int (1 + monthly_rate) total_tenure_months ;;
    float_div (principal * monthly_rate * p) (p' - 1).

(** Lines 213-223. *)
Definition amortization (principal emi monthly_rate : R)
    (total_tenure_months : Z) : loop_state :=
  fold_left (loop_body emi monthly_rate)
    (range 1 (total_tenure_months + 1))
    {| months := []; principals := []; interests := []; balances := [];
       current_balance := principal |}.

(** Lines 189-223, from the total tenure on. *)
Definition compute_loan (principal interest_rate : R) (total_tenure_months : Z)
    (show_schedule : bool) : result loan :=
  let monthly_rate := interest_rate / 12 / 100 in
  emi <- emi_formula principal monthly_rate total_tenure_months ;;
  let total_payment := emi * IZR total_tenure_months in
  let total_interest := total_payment - principal in
  Ok {| monthly_rate := monthly_rate;
        emi := emi;
        total_payment := total_payment;
        total_interest := total_interest;
        schedule :=
          if show_schedule
          then Some (amortization principal emi monthly_rate total_tenure_months)
          else None |}.

Definition emi_calculator (principal : R) (tenure_years : Z) (interest_rate : R)
    (tenure_months : Z) (show_schedule : bool) : result loan :=
  let total_tenure_months := (tenure_years * 12 + tenure_months)%Z in
  compute_loan principal interest_rate total_tenure_months show_schedule.

End EmiCalculator.

(** ** Tab 4: the investment growth simulator *)

Module InvestmentSimulator.

Record loop_state : Type := {
  dates : list datetime;
  nominal_values : list R;
  real_values : list R;
  contributions : list R;
  current_date : datetime;
  nominal_value : R;
  real_value : R;
  total_contributions : R
}.

Definition loop_body (months : Z)
    (monthly_return real_monthly_return monthly_contribution : R)
    (s : loop_state) (month : Z) : loop_state :=
  let dates := dates s ++ [current_date s] in
  let nominal_values := nominal_values s ++ [nominal_value s] in
  let real_values := real_values s ++ [real_value s] in
  let contributions := contributions s ++ [total_contributions s] in
  if (month <? months)%Z then
    {| dates := dates; nominal_values := nominal_values;
       real_values := real_values; contributions := contributions;
       current_date := (current_date s + timedelta_days 30)%Z;
       nominal_value := nominal_value s * (1 + monthly_return) + monthly_contribution;
       real_value := real_value s * (1 + real_monthly_return) + monthly_contribution;
       total_contributions := total_contributions s + monthly_contribution |}
  else
    {| dates := dates; nominal_values := nominal_values;
       real_values := real_values; contributions := contributions;
       current_date := current_date s;
       nominal_value := nominal_value s;
       real_value := real_value s;
       total_contributions := total_contributions s |}.

Record simulation : Type := {
  months : Z;
  monthly_return : R;
  monthly_inflation : R;
  real_monthly_return : R;
  series : loop_state;
  final_nominal : R;
  final_real : R;
  total_contributed : R;
  growth_nominal : R;
  growth_real : R
}.

Definition investment_simulator (now : datetime)
    (initial_investment monthly_contribution : R) (years : Z)
    (annual_return annual_inflation : R) : result simulation :=
  let months := (years * 12)%Z in
  p <- float_pow (1 + annual_return / 100) (1 / 12) ;;
  let monthly_return := p - 1 in
  p' <- float_pow (1 + annual_inflation / 100) (1 / 12) ;;
  let monthly_inflation := p' - 1 in
  q <- float_div (1 + monthly_return) (1 + monthly_inflation) ;;
  let real_monthly_return := q - 1 in
  let s :=
    fold_left
      (loop_body months monthly_return real_monthly_return monthly_contribution)
      (range 0 (months + 1))
      {| dates := []; nominal_values := []; real_values := [];
         contributions := [];
         current_date := now;
         nominal_value := initial_investment;
         real_value := initial_investment;
         total_contributions := initial_investment |} in
  final_nominal <- last_item (nominal_values s) ;;
  final_real <- last_item (real_values s) ;;
  total_contributed <- last_item (contributions s) ;;
  let growth_nominal := final_nominal - total_contributed in
  let growth_real := final_real - total_contributed in
  Ok {| months := months;
        monthly_return := monthly_return;
        monthly_inflation := monthly_inflation;
        real_monthly_return := real_monthly_return;
        series := s;
        final_nominal := final_nominal;
        final_real := final_real;
        total_contributed := total_contributed;
        growth_nominal := growth_nominal;
        growth_real := growth_real |}.

End InvestmentSimulator.

End Fincalc.

(** * The loan calculator on binary64 numbers

    Tab 3 again, with Python's [float] as what it is: an IEEE 754 binary64
    number.  [+], [-], [*] and [/] round to nearest, ties to even, as
    Rocq's primitive floats do.  [x ** n] is CPython's [float_pow]: it
    settles the special cases itself and leaves a finite [x > 0], [x <> 1]
    with [n <> 0] to the C library's [pow], which is not correctly rounded
    on every platform; [libm_pow] stands for it. *)

Module Binary64.

Open Scope float_scope.
Open Scope py_scope.

(** An [int] converted to [float]. *)
Definition of_int (n : Z) : float :=
  SF2Prim (binary_normalize prec emax n 0 false).

(** [x / y] *)
Definition float_div (x y : float) : result float :=
  if y =? 0 then Raise ZeroDivisionError else Ok (x / y).

Section Loan.

Variable libm_pow : float -> Z -> float.

(** [x ** n] for a float [x] and an int [n] ([float_pow] of
    floatobject.c). *)
Definition float_pow_int (x : float) (n : Z) : result float :=
  if (n =? 0)%Z then Ok 1
  else if is_nan x then Ok x
  else if is_infinity x then
    if (0 <? n)%Z then Ok (if Z.odd n then x else abs x)
    else Ok (if Z.odd n && (x <? 0) then neg_zero else 0)
  else if x =? 0 then
    if (n <? 0)%Z then Raise ZeroDivisionError
    else Ok (if Z.odd n then x else 0)
  else
    let negate_result := (x <? 0) && Z.odd n in
    let iv := abs x in
    if iv =? 1 then Ok (if negate_result then -1 else 1)
    else
      let ix := libm_pow iv n in
      if is_infinity ix then Raise OverflowError
      else Ok (if negate_result then - ix else ix).

Record loop_state : Type := {
  months : list Z;
  principals : list float;
  interests : list float;
  balances : list float;
  current_balance : float
}.

Definition loop_body (emi monthly_rate : float) (s : loop_state) (month : Z)
    : loop_state :=
  let interest_payment := current_balance s * monthly_rate in
  let principal_payment := emi - interest_payment in
  let current_balance := current_balance s - principal_payment in
  {| months := months s ++ [month];
     principals := principals s ++ [principal_payment];
     interests := interests s ++ [interest_payment];
     balances :=
       balances s ++ [if 0 <? current_balance then current_balance else 0];
     current_balance := current_balance |}.

Record loan : Type := {
  monthly_rate : float;
  emi : float;
  total_payment : float;
  total_interest : float;
  schedule : option loop_state
}.

Definition emi_formula (principal monthly_rate : float)
    (total_tenure_months : Z) : result float :=
  if monthly_rate =? 0 then
    float_div principal (of_int total_tenure_months)
  else
    p <- float_pow_int (1 + monthly_rate) total_tenure_months ;;
    p' <- float_pow_int (1 + monthly_rate) total_tenure_months ;;
    float_div (principal * monthly_rate * p) (p' - 1).

Definition amortization (principal emi monthly_rate : float)
    (total_tenure_months : Z) : loop_state :=
  fold_left (loop_body emi monthly_rate)
    (range 1 (total_tenure_months + 1))
    {| months := []; principals := []; interests := []; balances := [];
       current_balance := principal |}.

Definition compute_loan (principal interest_rate : float)
    (total_tenure_months : Z) (show_schedule : bool) : result loan :=
  let monthly_rate := interest_rate / 12 / 100 in
  emi <- emi_formula principal monthly_rate total_tenure_months ;;
  let total_payment := emi * of_int total_tenure_months in
  let total_interest := total_payment - principal in
  Ok {| monthly_rate := monthly_rate;
        emi := emi;
        total_payment := total_payment;
        total_interest := total_interest;
        schedule :=
          if show_schedule
          then Some (amortization principal emi monthly_rate total_tenure_months)
          else None |}.

End Loan.

(** *** Exact values *)

(** The rational number a finite float stands for ([None] for NaN and the
    infinities). *)
Definition to_Q (x : float) : option Q :=
  match Prim2SF x with
  | S754_zero _ => Some 0%Q
  | S754_finite s m e =>
      let v := if s then Z.neg m else Z.pos m in
      Some (match e with
            | Z0 => inject_Z v
            | Zpos p => inject_Z (v * 2 ^ Zpos p)
            | Zneg p => Qmake v (2 ^ p)
            end)
  | _ => None
  end.

(** The exact sum of a list of finite floats. *)
Fixpoint exact_sum (l : list float) : option Q :=
  match l with
  | [] => Some 0%Q
  | x :: l' =>
      match to_Q x, exact_sum l' with
      | Some q, Some q' => Some (Qred (q + q'))
      | _, _ => None
      end
  end.

(** [|q - target| <= eps], for an exact value [q]. *)
Definition within (eps target : Q) (q : option Q) : bool :=
  match q with
  | Some q => Qle_bool (Qabs (q - target)) eps
  | None => false
  end.

(** [sum(l)] on floats: from [0], left to right, each addition rounded. *)
Definition py_sum (l : list float) : float := fold_left add l 0.

(** [y] is a finite float within [delta] of the exact value of [x ^ n]:
    the accuracy of a [pow] that returns [y] for [x] and [n]. *)
Definition pow_accurate (delta : Q) (x : float) (n : positive) (y : float)
    : Prop :=
  match to_Q x, to_Q y with
  | Some qx, Some qy => (Qabs (qy - qx ^ Z.pos n) <= delta)%Q
  | _, _ => False
  end.

(** [x ^ n] rounded once, to nearest: what a correctly rounded [pow]
    returns for a finite [x] and [n > 0]. *)
Definition pow_rounded (x : float) (n : Z) : float :=
  match Prim2SF x, n with
  | S754_finite s m e, Zpos k =>
      SF2Prim (binary_normalize prec emax
                 (if s then Z.neg (m ^ k) else Z.pos (m ^ k)) (e * n) false)
  | _, _ => nan
  end.

(** The floats at most [k] steps away from [y], below and above. *)
Definition neighbours (k : nat) (y : float) : list float :=
  map (fun i => Nat.iter i next_down y) (rev (seq 1 k))
  ++ y :: map (fun i => Nat.iter i next_up y) (seq 1 k).

End Binary64.

(** * Two runs at different instants

    Tabs 2 and 4 read the clock ([datetime.now()]) for the dates of their
    series.  [Later d] moves every date of a result by the duration [d]
    and leaves the rest as it is: it relates the result of a run to the
    result of a run on the same inputs [d] later. *)

Module Later.



Definition investment_series (d : Z)
    (s : Fincalc.InvestmentSimulator.loop_state)
    : Fincalc.InvestmentSimulator.loop_state :=
  {| Fincalc.InvestmentSimulator.dates :=
       map (Z.add d) (Fincalc.InvestmentSimulator.dates s);
     Fincalc.InvestmentSimulator.nominal_values :=
       Fincalc.InvestmentSimulator.nominal_values s;
     Fincalc.InvestmentSimulator.real_values :=
       Fincalc.InvestmentSimulator.real_values s;
     Fincalc.InvestmentSimulator.contributions :=
       Fincalc.InvestmentSimulator.contributions s;
     Fincalc.InvestmentSimulator.current_date :=
       (d + Fincalc.InvestmentSimulator.current_date s)%Z;
     Fincalc.InvestmentSimulator.nominal_value :=
       Fincalc.InvestmentSimulator.nominal_value s;
     Fincalc.InvestmentSimulator.real_value :=
       Fincalc.InvestmentSimulator.real_value s;
     Fincalc.InvestmentSimulator.total_contributions :=
       Fincalc.InvestmentSimulator.total_contributions s |}.

Definition simulation (d : Z) (sim : Fincalc.InvestmentSimulator.simulation)
    : Fincalc.InvestmentSimulator.simulation :=
  {| Fincalc.InvestmentSimulator.months := Fincalc.InvestmentSimulator.months sim;
     Fincalc.InvestmentSimulator.monthly_return :=
       Fincalc.InvestmentSimulator.monthly_return sim;
     Fincalc.InvestmentSimulator.monthly_inflation :=
       Fincalc.InvestmentSimulator.monthly_inflation sim;
     Fincalc.InvestmentSimulator.real_monthly_return :=
       Fincalc.InvestmentSimulator.real_monthly_return sim;
     Fincalc.InvestmentSimulator.series :=
       investment_series d (Fincalc.InvestmentSimulator.series sim);
     Fincalc.InvestmentSimulator.final_nominal :=
       Fincalc.InvestmentSimulator.final_nominal sim;
     Fincalc.InvestmentSimulator.final_real :=
       Fincalc.InvestmentSimulator.final_real sim;
     Fincalc.InvestmentSimulator.total_contributed :=
       Fincalc.InvestmentSimulator.total_contributed sim;
     Fincalc.InvestmentSimulator.growth_nominal :=
       Fincalc.InvestmentSimulator.growth_nominal sim;
     Fincalc.InvestmentSimulator.growth_real :=
       Fincalc.InvestmentSimulator.growth_real sim |}.

End Later.

(** * The specification's formulas

    Written after the words of the specification, to be compared with what
    the code computes. *)

Module Spec.

Open Scope R_scope.

(** "totalExpenses (sum of all category values, including zeros)" *)
Fixpoint sum_of_values (expenses : Fincalc.dict) : R :=
  match expenses with
  | [] => 0
  | (_, amount) :: rest => amount + sum_of_values rest
  end.

(** 4.2, step 2, with the rates as fractions. *)
Definition monthlyRate (interestRate inflationRate : R) : R :=
  ((1 + interestRate) / (1 + inflationRate) - 1) / 12.

(** 4.2, steps 3 and 4. *)
Definition monthsFormula (remaining monthlySavings monthlyRate : R) : R :=
  if Req_dec_T monthlyRate 0 then remaining / monthlySavings
  else ln (1 + monthlyRate * remaining / monthlySavings) / ln (1 + monthlyRate).


End Spec.

(** * One run of the script

    Streamlit runs the script from top to bottom on every interaction,
    with fresh variables; an exception that nothing catches ends the run
    and leaves on the page what was rendered before it.  A button is true
    in a run only if that run is its click. *)

Module Page.

Import Fincalc.

(** The values of the widgets in one run.  The script calls two sliders
    [interest_rate], the one of tab 2 and then the one of tab 3. *)
Record widgets : Type := {
  income : R;
  number_input : string -> R -> R;
  goal_amount : R;
  monthly_savings : R;
  current_savings : R;
  savings_interest_rate : R;
  inflation_rate : R;
  calculate_button : bool;
  principal : R;
  tenure_years : Z;
  loan_interest_rate : R;
  tenure_months : Z;
  show_schedule : bool;
  initial_investment : R;
  monthly_contribution : R;
  years : Z;
  annual_return : R;
  annual_inflation : R;
  simulate_button : bool;
  report_button : bool
}.

(** The values that lines 343-364 put into the text of the report. *)
Record report : Type := {
  report_income : R;
  report_total_expenses : R;
  report_balance : R;
  report_goal_amount : R;
  report_monthly_savings : R;
  report_principal : R;
  report_emi : R;
  report_total_interest : R;
  report_initial_investment : R;
  report_years : Z;
  report_final_nominal : R
}.

(** What a run puts on the page, tab by tab. *)
Inductive element : Type :=
| budget (b : budget_summary) (d : expense_distribution)
| savings (o : SavingsGoal.outcome)
| emi_results (l : EmiCalculator.loan)
| investment (sim : InvestmentSimulator.simulation)
| download_button (r : report).

(** How a run ends early: an exception of a computation, or the use of a
    variable that no statement of this run has assigned. *)
Inductive error : Type :=
| Exception (e : exn)
| NameError (name : string).

Record run : Type := {
  shown : list element;
  failure : option error
}.

(** The script; [now2] and [now4] are what the clock reads in tab 2 and
    in tab 4. *)
Definition run_script (now2 now4 : datetime) (w : widgets) : run :=
  let expenses := read_expenses (number_input w) in
  let b := budget_tracker (income w) expenses in
  let shown1 := [budget b (expense_charts expenses)] in
  match
    (if calculate_button w then
       fmap Some
         (SavingsGoal.savings_goal now2 (goal_amount w) (monthly_savings w)
            (current_savings w) (savings_interest_rate w) (inflation_rate w))
     else Ok None)
  with
  | Raise e => {| shown := shown1; failure := Some (Exception e) |}
  | Ok o =>
    let shown2 :=
      shown1 ++ match o with Some o => [savings o] | None => [] end in
    match
      EmiCalculator.emi_calculator (principal w) (tenure_years w)
        (loan_interest_rate w) (tenure_months w) (show_schedule w)
    with
    | Raise e => {| shown := shown2; failure := Some (Exception e) |}
    | Ok l =>
      let shown3 := shown2 ++ [emi_results l] in
      match
        (if simulate_button w then
           fmap Some
             (InvestmentSimulator.investment_simulator now4
                (initial_investment w) (monthly_contribution w) (years w)
                (annual_return w) (annual_inflation w))
         else Ok None)
      with
      | Raise e => {| shown := shown3; failure := Some (Exception e) |}
      | Ok sim =>
        let shown4 :=
          shown3 ++ match sim with Some sim => [investment sim] | None => [] end in
        if report_button w then
          match sim with
          | None =>
              {| shown := shown4; failure := Some (NameError "final_nominal") |}
          | Some sim =>
              {| shown :=
                   shown4 ++
                   [download_button
                      {| report_income := income w;
                         report_total_expenses := total_expenses b;
                         report_balance := balance b;
                         report_goal_amount := goal_amount w;
                         report_monthly_savings := monthly_savings w;
                         report_principal := principal w;
                         report_emi := EmiCalculator.emi l;
                         report_total_interest := EmiCalculator.total_interest l;
                         report_initial_investment := initial_investment w;
                         report_years := years w;
                         report_final_nominal :=
                           InvestmentSimulator.final_nominal sim |}];
                 failure := None |}
          end
        else {| shown := shown4; failure := None |}
      end
    end
  end.


(** The page as it opens (every widget at its [value]), with the given
    clicks. *)
Definition defaults (calculate simulate generate : bool) : widgets :=
  {| income := 3000;
     number_input := fun _ default_val => default_val;
     goal_amount := 10000;
     monthly_savings := 500;
     current_savings := 0;
     savings_interest_rate := 3.5;
     inflation_rate := 2;
     calculate_button := calculate;
     principal := 20000;
     tenure_years := 5;
     loan_interest_rate := 7.5;
     tenure_months := 0;
     show_schedule := false;
     initial_investment := 1000;
     monthly_contribution := 100;
     years := 10;
     annual_return := 7;
     annual_inflation := 2.5;
     simulate_button := simulate;
     report_button := generate |}.

End Page.

(** * Properties *)

Import Fincalc.
Open Scope R_scope.

(** Decides the comparisons of a goal whose outcome follows by linear
    arithmetic from the hypotheses. *)
Ltac decide_cmp :=
  repeat match goal with
  | |- context [Rle_dec ?a ?b] => destruct (Rle_dec a b); try lra
  | |- context [Rlt_dec ?a ?b] => destruct (Rlt_dec a b); try lra
  | |- context [Req_dec_T ?a ?b] => destruct (Req_dec_T a b); try lra
  end.

(** ** Lists built by the loops *)

Lemma last_item_snoc (A : Type) (l : list A) (x : A) :
  last_item (l ++ [x]) = Ok x.
Proof. unfold last_item. rewrite rev_app_distr. reflexivity. Qed.

Lemma last_item_map_seq (A : Type) (g : nat -> A) (k : nat) :
  last_item (map g (seq 0 (S k))) = Ok (g k).
Proof. rewrite seq_S, map_app. apply last_item_snoc. Qed.

Lemma range_length lo hi : length (range lo hi) = Z.to_nat (hi - lo).
Proof. unfold range. now rewrite length_map, length_seq. Qed.

Lemma iter_shift (A : Type) (f : A -> A) (n : nat) (a : A) :
  Nat.iter n f (f a) = Nat.iter (S n) f a.
Proof. symmetry. apply Nat.iter_succ_r. Qed.

Lemma map_iter_shift (A : Type) (f : A -> A) (a : A) (n : nat) :
  a :: map (fun i => Nat.iter i f (f a)) (seq 0 n)
  = map (fun i => Nat.iter i f a) (seq 0 (S n)).
Proof.
  simpl. f_equal. rewrite <- seq_shift, map_map.
  apply map_ext. intros i. apply iter_shift.
Qed.

(** ** Tab 1 *)

Lemma fold_left_Rplus (l : list R) (acc : R) :
  fold_left Rplus l acc = acc + fold_right Rplus 0 l.
Proof.
  revert acc. induction l as [|x l IH]; intros acc; simpl.
  - lra.
  - rewrite IH. lra.
Qed.

(** The values the budget is computed from are those of the nine input
    fields, in the order of [expense_categories]. *)
Lemma read_expenses_items (number_input : string -> R -> R) :
  read_expenses number_input
  = map (fun '(category, default_val) =>
           (category, number_input category default_val))
        expense_categories.
Proof. reflexivity. Qed.

(** C3.  For every income and every expense mapping, whatever the sign of
    its values, the budget tracker computes a result (it is a total
    function, no step of it can raise): [total_expenses] is the sum of all
    the values of the mapping and [balance] is the income minus that sum. *)
Theorem budget_tracker_sum (income : R) (expenses : dict) :
  budget_tracker income expenses
  = {| total_expenses := Spec.sum_of_values expenses;
       balance := income - Spec.sum_of_values expenses |}.
Proof.
  unfold budget_tracker, py_sum, dict_values.
  rewrite fold_left_Rplus, Rplus_0_l.
  assert (Hsum : fold_right Rplus 0 (map snd expenses)
                 = Spec.sum_of_values expenses).
  { induction expenses as [|[category amount] rest IH]; simpl; [reflexivity|].
    now rewrite IH. }
  now rewrite Hsum.
Qed.

(** ** Tab 2 *)

Lemma map_date_shift (d step : Z) (n : nat) :
  d :: map (fun i => (d + step + Z.of_nat i * step)%Z) (seq 0 n)
  = map (fun i => (d + Z.of_nat i * step)%Z) (seq 0 (S n)).
Proof.
  cbn [seq map]. f_equal; [lia|].
  rewrite <- seq_shift, map_map. apply map_ext. intros i. lia.
Qed.

(** The projection loop in closed form: after the months of [l], the
    lists hold one more entry per month, the dates 30 days apart and the
    amounts compounded month by month. *)
Lemma savings_loop (monthly_rate monthly_savings : R) (l : list Z)
    (s : SavingsGoal.loop_state) :
  let f := fun a => a * (1 + monthly_rate) + monthly_savings in
  fold_left (SavingsGoal.loop_body monthly_rate monthly_savings) l s
  = {| SavingsGoal.dates :=
         SavingsGoal.dates s ++
         map (fun i => (SavingsGoal.current_date s
                        + Z.of_nat i * timedelta_days 30)%Z)
             (seq 0 (length l));
       SavingsGoal.amounts :=
         SavingsGoal.amounts s ++
         map (fun i => Nat.iter i f (SavingsGoal.current_amount s))
             (seq 0 (length l));
       SavingsGoal.current_date :=
         (SavingsGoal.current_date s
          + Z.of_nat (length l) * timedelta_days 30)%Z;
       SavingsGoal.current_amount :=
         Nat.iter (length l) f (SavingsGoal.current_amount s) |}.
Proof.
  intros f. revert s. induction l as [|month l IH]; intros s.
  - destruct s; cbn. rewrite !app_nil_r. f_equal. lia.
  - cbn [fold_left]. rewrite IH. unfold SavingsGoal.loop_body.
    cbn [SavingsGoal.dates SavingsGoal.amounts SavingsGoal.current_date
         SavingsGoal.current_amount length].
    rewrite <- !app_assoc. cbn [app].
    rewrite map_date_shift.
    fold (f (SavingsGoal.current_amount s)).
    rewrite (map_iter_shift f), iter_shift.
    f_equal. lia.
Qed.

Lemma py_int_ceil (x : R) : py_int (np_ceil (Finite x)) = Ok (Zceil x).
Proof.
  cbn. f_equal. destruct (Rle_dec 0 (IZR (Zceil x))).
  - apply ZfloorZ.
  - apply Zceil_eq. lra.
Qed.


(** The code's monthly rate is the specification's, the percentages
    turned into fractions. *)
Lemma months_needed_defined
    (remaining monthly_savings interest_rate inflation_rate : R) :
  let r := Spec.monthlyRate (interest_rate / 100) (inflation_rate / 100) in
  monthly_savings <> 0 ->
  1 + inflation_rate / 100 <> 0 ->
  0 < 1 + r ->
  0 < 1 + r * remaining / monthly_savings ->
  SavingsGoal.months_needed remaining monthly_savings interest_rate inflation_rate
  = Ok (r, Z.max 1 (Zceil (Spec.monthsFormula remaining monthly_savings r))).
Proof.
  intros r Hs Hi Hr Hlog.
  unfold SavingsGoal.months_needed, float_div.
  destruct (Req_dec_T (1 + inflation_rate / 100) 0) as [|_]; [contradiction|].
  cbn [bind]. fold (Spec.monthlyRate (interest_rate / 100) (inflation_rate / 100)).
  fold r. unfold Spec.monthsFormula.
  destruct (Req_dec_T monthly_savings 0) as [|_]; [contradiction|].
  destruct (Req_dec_T r 0) as [Hz|Hnz]; cbn [bind].
  - now rewrite py_int_ceil.
  - unfold np_log.
    destruct (Rlt_dec 0 (1 + r * remaining / monthly_savings)); [|contradiction].
    destruct (Rlt_dec 0 (1 + r)); [|contradiction].
    unfold np_div.
    destruct (Req_dec_T (ln (1 + r)) 0) as [Hln|_].
    + exfalso. apply Hnz.
      assert (H1 : 1 + r = 1).
      { apply ln_inv; try lra. now rewrite ln_1. }
      lra.
    + now rewrite py_int_ceil.
Qed.

(** Once the number of months is known, the tab's outcome is the
    projection over these months. *)
Lemma savings_goal_projection (now : datetime)
    (goal_amount monthly_savings current_savings interest_rate inflation_rate : R)
    (monthly_rate : R) (months : Z) :
  let f := fun a => a * (1 + monthly_rate) + monthly_savings in
  0 < monthly_savings ->
  0 < goal_amount - current_savings ->
  SavingsGoal.months_needed (goal_amount - current_savings) monthly_savings
    interest_rate inflation_rate = Ok (monthly_rate, months) ->
  (0 <= months)%Z ->
  SavingsGoal.savings_goal now goal_amount monthly_savings current_savings
    interest_rate inflation_rate
  = Ok (SavingsGoal.time_to_reach_goal
          {| SavingsGoal.months := months;
             SavingsGoal.years := (months / 12)%Z;
             SavingsGoal.remaining_months := (months mod 12)%Z;
             SavingsGoal.series :=
               {| SavingsGoal.dates :=
                    map (fun i => (now + Z.of_nat i * timedelta_days 30)%Z)
                        (seq 0 (S (Z.to_nat months)));
                  SavingsGoal.amounts :=
                    map (fun i => Nat.iter i f current_savings)
                        (seq 0 (S (Z.to_nat months)));
                  SavingsGoal.current_date :=
                    (now + Z.of_nat (S (Z.to_nat months)) * timedelta_days 30)%Z;
                  SavingsGoal.current_amount :=
                    Nat.iter (S (Z.to_nat months)) f current_savings |};
             SavingsGoal.final_amount :=
               Nat.iter (Z.to_nat months) f current_savings |}).
Proof.
  intros f Hs Hr Hm Hpos. unfold SavingsGoal.savings_goal.
  destruct (Rle_dec monthly_savings 0); [lra|].
  destruct (Rle_dec (goal_amount - current_savings) 0); [lra|].
  rewrite Hm. cbn [bind]. rewrite savings_loop.
  cbn [SavingsGoal.dates SavingsGoal.amounts SavingsGoal.current_date
       SavingsGoal.current_amount app].
  rewrite range_length.
  replace (Z.to_nat (months + 1 - 0)) with (S (Z.to_nat months)) by lia.
  fold f. rewrite last_item_map_seq. reflexivity.
Qed.




(** C5, as the code has it.  The check of the monthly savings comes
    first: with [current_savings >= goal_amount] the tab reports that the
    goal is already reached when [monthly_savings > 0], whatever the
    rates, and it reports the invalid input when [monthly_savings <= 0]. *)
Theorem goal_already_met (now : datetime)
    (goal_amount monthly_savings current_savings interest_rate inflation_rate : R) :
  goal_amount <= current_savings ->
  (0 < monthly_savings ->
   SavingsGoal.savings_goal now goal_amount monthly_savings current_savings
     interest_rate inflation_rate = Ok SavingsGoal.goal_already_reached) /\
  (monthly_savings <= 0 ->
   SavingsGoal.savings_goal now goal_amount monthly_savings current_savings
     interest_rate inflation_rate
   = Ok (SavingsGoal.st_error "Monthly savings must be greater than 0!")).
Proof.
  intros Hmet. unfold SavingsGoal.savings_goal.
  split; intros Hs; decide_cmp; reflexivity.
Qed.

Lemma goal_already_met_witness :
  SavingsGoal.savings_goal 0%Z 10000 500 12000 3.5 2
  = Ok SavingsGoal.goal_already_reached.
Proof.
  apply (@goal_already_met 0%Z 10000 500 12000 3.5 2); lra.
Defined.

(** C5 as stated fails: savings of 200 against a goal of 100 with
    [monthly_savings = 0] end in the error message, not in "already
    reached". *)
Lemma goal_met_but_invalid_input :
  SavingsGoal.savings_goal 0%Z 100 0 200 3.5 2
  = Ok (SavingsGoal.st_error "Monthly savings must be greater than 0!").
Proof.
  unfold SavingsGoal.savings_goal. decide_cmp. reflexivity.
Qed.

(** ** Tab 3 *)



Lemma emi_formula_zero_rate (principal : R) (n : Z) :
  n <> 0%Z ->
  EmiCalculator.emi_formula principal 0 n = Ok (principal / IZR n).
Proof.
  intros Hn. unfold EmiCalculator.emi_formula, float_div.
  destruct (Req_dec_T 0 0); [|lra].
  destruct (Req_dec_T (IZR n) 0) as [H|_]; [|reflexivity].
  apply eq_IZR_R0 in H. contradiction.
Qed.

Lemma nth_map_seq (A : Type) (g : nat -> A) (n i : nat) (d : A) :
  (i < n)%nat -> nth i (map g (seq 0 n)) d = g i.
Proof.
  intros Hi. rewrite (nth_indep _ d (g 0%nat)) by now rewrite length_map, length_seq.
  rewrite map_nth, seq_nth by assumption. reflexivity.
Qed.


Section Amortization.

Variables principal emi monthly_rate : R.
Hypothesis rate_nonneg : 0 <= monthly_rate.
Hypothesis emi_covers_interest : principal * monthly_rate <= emi.

Let g := fun b => b - (emi - b * monthly_rate).



End Amortization.











Lemma compute_loan_of_emi (principal interest_rate emi : R) (n : Z)
    (show_schedule : bool) :
  EmiCalculator.emi_formula principal (interest_rate / 12 / 100) n = Ok emi ->
  exists l, EmiCalculator.compute_loan principal interest_rate n show_schedule = Ok l /\
    EmiCalculator.emi l = emi /\
    EmiCalculator.total_payment l = emi * IZR n /\
    EmiCalculator.total_interest l = emi * IZR n - principal /\
    (EmiCalculator.schedule l <> None <-> show_schedule = true).
Proof.
  intros Hemi. unfold EmiCalculator.compute_loan. rewrite Hemi. cbn [bind].
  eexists. split; [reflexivity|]. cbn. repeat split; try reflexivity.
  - destruct show_schedule; congruence.
  - intros ->. discriminate.
Qed.




(** The rate matters too: with -2400% a year the monthly factor is -1,
    whose square is 1, and a tenure of two months divides by zero. *)
Lemma loan_negative_rate_divides_by_zero :
  EmiCalculator.compute_loan 20000 (-2400) 2 false = Raise ZeroDivisionError.
Proof.
  unfold EmiCalculator.compute_loan, EmiCalculator.emi_formula,
    float_pow_int, float_div.
  destruct (Req_dec_T (-2400 / 12 / 100) 0); [lra|].
  destruct (Req_dec_T (1 + -2400 / 12 / 100) 0); [lra|].
  cbn [bind]. change (powerRZ ?x 2) with (x * (x * 1)).
  destruct (Req_dec_T _ 0) as [_|Hnz]; [reflexivity|].
  exfalso. apply Hnz. lra.
Qed.


(** ** Tab 4 *)

Lemma map_seq_snoc (A : Type) (g : nat -> A) (k : nat) :
  map g (seq 0 k) ++ [g k] = map g (seq 0 (S k)).
Proof. now rewrite seq_S, map_app. Qed.

(** The simulation loop in closed form, after the first [k] of the
    [months + 1] rounds: [k] entries are recorded, entry [i] holding the
    values after [i] updates; the last round records without updating. *)
Lemma investment_loop (months : Z)
    (monthly_return real_monthly_return monthly_contribution : R)
    (now : datetime) (initial_investment : R) (k : nat) :
  let fn := fun v => v * (1 + monthly_return) + monthly_contribution in
  let fr := fun v => v * (1 + real_monthly_return) + monthly_contribution in
  let fc := fun c => c + monthly_contribution in
  let m := Nat.min k (Z.to_nat months) in
  (0 <= months)%Z -> (k <= S (Z.to_nat months))%nat ->
  fold_left
    (InvestmentSimulator.loop_body months monthly_return real_monthly_return
       monthly_contribution)
    (map (fun i => (0 + Z.of_nat i)%Z) (seq 0 k))
    {| InvestmentSimulator.dates := [];
       InvestmentSimulator.nominal_values := [];
       InvestmentSimulator.real_values := [];
       InvestmentSimulator.contributions := [];
       InvestmentSimulator.current_date := now;
       InvestmentSimulator.nominal_value := initial_investment;
       InvestmentSimulator.real_value := initial_investment;
       InvestmentSimulator.total_contributions := initial_investment |}
  = {| InvestmentSimulator.dates :=
         map (fun i => (now + Z.of_nat i * timedelta_days 30)%Z) (seq 0 k);
       InvestmentSimulator.nominal_values :=
         map (fun i => Nat.iter i fn initial_investment) (seq 0 k);
       InvestmentSimulator.real_values :=
         map (fun i => Nat.iter i fr initial_investment) (seq 0 k);
       InvestmentSimulator.contributions :=
         map (fun i => Nat.iter i fc initial_investment) (seq 0 k);
       InvestmentSimulator.current_date :=
         (now + Z.of_nat m * timedelta_days 30)%Z;
       InvestmentSimulator.nominal_value := Nat.iter m fn initial_investment;
       InvestmentSimulator.real_value := Nat.iter m fr initial_investment;
       InvestmentSimulator.total_contributions :=
         Nat.iter m fc initial_investment |}.
Proof.
  intros fn fr fc m Hmonths. subst m. induction k as [|k IH]; intros Hk.
  - cbn. f_equal. lia.
  - rewrite seq_S, map_app, fold_left_app, IH by lia. cbn [map fold_left Nat.add].
    unfold InvestmentSimulator.loop_body.
    cbn [InvestmentSimulator.dates InvestmentSimulator.nominal_values
         InvestmentSimulator.real_values InvestmentSimulator.contributions
         InvestmentSimulator.current_date InvestmentSimulator.nominal_value
         InvestmentSimulator.real_value InvestmentSimulator.total_contributions].
    replace (Nat.min k (Z.to_nat months)) with k by lia.
    rewrite (map_seq_snoc (fun i => (now + Z.of_nat i * timedelta_days 30)%Z)).
    rewrite (map_seq_snoc (fun i => Nat.iter i fn initial_investment)).
    rewrite (map_seq_snoc (fun i => Nat.iter i fr initial_investment)).
    rewrite (map_seq_snoc (fun i => Nat.iter i fc initial_investment)).
    destruct (0 + Z.of_nat k <? months)%Z eqn:Hlt.
    + apply Z.ltb_lt in Hlt.
      replace (Nat.min (S k) (Z.to_nat months)) with (S k) by lia.
      f_equal; try (now rewrite seq_S). lia.
    + apply Z.ltb_ge in Hlt.
      replace (Nat.min (S k) (Z.to_nat months)) with k by lia.
      f_equal; now rewrite seq_S.
Qed.


(** The simulation in closed form, from the two monthly factors. *)
Lemma investment_simulator_of_rates (now : datetime)
    (initial_investment monthly_contribution : R) (years : Z)
    (annual_return annual_inflation p p' : R) :
  let monthly_return := p - 1 in
  let monthly_inflation := p' - 1 in
  let real_monthly_return := (1 + monthly_return) / (1 + monthly_inflation) - 1 in
  let fn := fun v => v * (1 + monthly_return) + monthly_contribution in
  let fr := fun v => v * (1 + real_monthly_return) + monthly_contribution in
  let fc := fun c => c + monthly_contribution in
  let m := Z.to_nat (years * 12) in
  float_pow (1 + annual_return / 100) (1 / 12) = Ok p ->
  float_pow (1 + annual_inflation / 100) (1 / 12) = Ok p' ->
  1 + monthly_inflation <> 0 ->
  (0 <= years)%Z ->
  InvestmentSimulator.investment_simulator now initial_investment
    monthly_contribution years annual_return annual_inflation
  = Ok {| InvestmentSimulator.months := (years * 12)%Z;
          InvestmentSimulator.monthly_return := monthly_return;
          InvestmentSimulator.monthly_inflation := monthly_inflation;
          InvestmentSimulator.real_monthly_return := real_monthly_return;
          InvestmentSimulator.series :=
            {| InvestmentSimulator.dates :=
                 map (fun i => (now + Z.of_nat i * timedelta_days 30)%Z)
                     (seq 0 (S m));
               InvestmentSimulator.nominal_values :=
                 map (fun i => Nat.iter i fn initial_investment) (seq 0 (S m));
               InvestmentSimulator.real_values :=
                 map (fun i => Nat.iter i fr initial_investment) (seq 0 (S m));
               InvestmentSimulator.contributions :=
                 map (fun i => Nat.iter i fc initial_investment) (seq 0 (S m));
               InvestmentSimulator.current_date :=
                 (now + Z.of_nat m * timedelta_days 30)%Z;
               InvestmentSimulator.nominal_value :=
                 Nat.iter m fn initial_investment;
               InvestmentSimulator.real_value :=
                 Nat.iter m fr initial_investment;
               InvestmentSimulator.total_contributions :=
                 Nat.iter m fc initial_investment |};
          InvestmentSimulator.final_nominal := Nat.iter m fn initial_investment;
          InvestmentSimulator.final_real := Nat.iter m fr initial_investment;
          InvestmentSimulator.total_contributed :=
            Nat.iter m fc initial_investment;
          InvestmentSimulator.growth_nominal :=
            Nat.iter m fn initial_investment - Nat.iter m fc initial_investment;
          InvestmentSimulator.growth_real :=
            Nat.iter m fr initial_investment - Nat.iter m fc initial_investment |}.
Proof.
  intros monthly_return monthly_inflation real_monthly_return fn fr fc m
    Hp Hp' Hinfl Hyears.
  unfold InvestmentSimulator.investment_simulator.
  rewrite Hp, Hp'. cbn [bind]. unfold float_div.
  fold monthly_return monthly_inflation.
  destruct (Req_dec_T (1 + monthly_inflation) 0) as [|_]; [contradiction|].
  cbn [bind]. fold real_monthly_return.
  unfold range. replace (Z.to_nat (years * 12 + 1 - 0)) with (S m) by lia.
  rewrite investment_loop by lia.
  cbn [InvestmentSimulator.nominal_values InvestmentSimulator.real_values
       InvestmentSimulator.contributions].
  rewrite !last_item_map_seq. cbn [bind].
  fold m. replace (Nat.min (S m) m) with m by lia. reflexivity.
Qed.

(** What a run that returns a result has gone through. *)
Lemma investment_simulator_inv (now : datetime)
    (initial_investment monthly_contribution : R) (years : Z)
    (annual_return annual_inflation : R) (sim : InvestmentSimulator.simulation) :
  InvestmentSimulator.investment_simulator now initial_investment
    monthly_contribution years annual_return annual_inflation = Ok sim ->
  exists p p',
    float_pow (1 + annual_return / 100) (1 / 12) = Ok p /\
    float_pow (1 + annual_inflation / 100) (1 / 12) = Ok p' /\
    1 + (p' - 1) <> 0 /\ (0 <= years)%Z.
Proof.
  unfold InvestmentSimulator.investment_simulator.
  destruct (float_pow (1 + annual_return / 100) (1 / 12)) as [p|]; [|discriminate].
  destruct (float_pow (1 + annual_inflation / 100) (1 / 12)) as [p'|];
    [|discriminate].
  cbn [bind]. unfold float_div.
  destruct (Req_dec_T (1 + (p' - 1)) 0); [discriminate|]. cbn [bind].
  intros H. exists p, p'. repeat split; try assumption.
  destruct (Z_lt_le_dec years 0) as [Hneg|]; [exfalso|assumption].
  unfold range in H. replace (Z.to_nat (years * 12 + 1 - 0)) with 0%nat in H by lia.
  cbn in H. discriminate.
Qed.

(** The monthly factor of a yearly rate above -100% is its twelfth root. *)
Lemma twelfth_root (x : R) :
  0 < x -> float_pow x (1 / 12) = Ok (Rpower x (1 / 12)) /\
           0 < Rpower x (1 / 12) /\ Rpower x (1 / 12) ^ 12 = x.
Proof.
  intros Hx. unfold float_pow. destruct (Rlt_dec 0 x); [|contradiction].
  assert (Hpos : 0 < Rpower x (1 / 12)) by (unfold Rpower; apply exp_pos).
  repeat split; try assumption.
  rewrite <- Rpower_pow by assumption.
  rewrite Rpower_mult. replace (1 / 12 * INR 12) with 1 by (simpl; lra).
  now apply Rpower_1.
Qed.



(** The simulator returns a result whenever both yearly rates are above
    -100% and the number of years is not negative. *)
Lemma investment_simulator_total (now : datetime)
    (initial_investment monthly_contribution : R) (years : Z)
    (annual_return annual_inflation : R) :
  0 < 1 + annual_return / 100 -> 0 < 1 + annual_inflation / 100 ->
  (0 <= years)%Z ->
  exists sim : InvestmentSimulator.simulation,
    InvestmentSimulator.investment_simulator now initial_investment
      monthly_contribution years annual_return annual_inflation = Ok sim.
Proof.
  intros Hret Hinfl Hyears.
  destruct (twelfth_root Hret) as [Hp _].
  destruct (twelfth_root Hinfl) as [Hp' [Hpos' _]].
  eexists.
  apply (investment_simulator_of_rates now initial_investment
           monthly_contribution annual_return annual_inflation Hp Hp');
    [lra|lia].
Qed.



(** ** The clock *)





(** ** Tab 3 on binary64 numbers *)

Section Binary64Loan.

Open Scope float_scope.

(** The calculator uses the C library's [pow] at one point only. *)
Lemma compute_loan_pow_value (libm_pow : float -> Z -> float)
    (principal interest_rate : float) (n : Z) (show_schedule : bool) (q : float) :
  libm_pow (abs (1 + interest_rate / 12 / 100)) n = q ->
  Binary64.compute_loan libm_pow principal interest_rate n show_schedule
  = Binary64.compute_loan (fun _ _ => q) principal interest_rate n show_schedule.
Proof.
  intros H. unfold Binary64.compute_loan, Binary64.emi_formula,
    Binary64.float_pow_int. now rewrite H.
Qed.

(** The correctly rounded value of [1.00625 ^ 60]: the exact power lies
    strictly between its two neighbours and is nearer to it than to
    either. *)
Lemma pow_rounded_nearest :
  let x := 1 + 7.5 / 12 / 100 in
  let y := Binary64.pow_rounded x 60 in
  exists qx qy lo hi : Q,
    Binary64.to_Q x = Some qx /\ Binary64.to_Q y = Some qy /\
    Binary64.to_Q (next_down y) = Some lo /\
    Binary64.to_Q (next_up y) = Some hi /\
    (lo < qx ^ 60)%Q /\ (qx ^ 60 < hi)%Q /\
    (Qabs (qy - qx ^ 60) < Qabs (lo - qx ^ 60))%Q /\
    (Qabs (qy - qx ^ 60) < Qabs (hi - qx ^ 60))%Q.
Proof.
  do 4 eexists.
  split; [vm_compute; reflexivity|]. split; [vm_compute; reflexivity|].
  split; [vm_compute; reflexivity|]. split; [vm_compute; reflexivity|].
  repeat split; vm_compute; reflexivity.
Qed.

Lemma digits2_pos_size (m : positive) : digits2_pos m = Pos.size m.
Proof. induction m; simpl; congruence. Qed.

Lemma digits2_pos_bounds (m : positive) :
  (2 ^ (Z.pos (digits2_pos m) - 1) <= Z.pos m < 2 ^ Z.pos (digits2_pos m))%Z.
Proof.
  rewrite digits2_pos_size. split.
  - pose proof (Pos.size_le m) as H.
    assert (H2 : (2 ^ Z.pos (Pos.size m) <= 2 * Z.pos m)%Z).
    { rewrite <- Pos2Z.inj_pow. change (2 * Z.pos m)%Z with (Z.pos m~0). lia. }
    replace (Z.pos (Pos.size m)) with (Z.succ (Z.pos (Pos.size m) - 1)) in H2
      by lia.
    rewrite Z.pow_succ_r in H2 by lia. lia.
  - pose proof (Pos.size_gt m). rewrite <- Pos2Z.inj_pow. lia.
Qed.

(** A binary64 number strictly between 1 and 2 has the exponent -52. *)
Lemma binade_1_2 (m p : positive) :
  bounded prec emax m (Z.neg p) = true ->
  (2 ^ Z.pos p < Z.pos m < 2 * 2 ^ Z.pos p)%Z ->
  p = 52%positive.
Proof.
  unfold bounded, canonical_mantissa, fexp, emin, prec, emax.
  intros Hb [Hlo Hhi]. apply andb_prop in Hb. destruct Hb as [Hc _].
  apply Z.eqb_eq in Hc.
  pose proof (digits2_pos_bounds m) as [Hd1 Hd2].
  assert (Hd : Z.pos (digits2_pos m) = (Z.pos p + 1)%Z).
  { assert (Z.pos p < Z.pos (digits2_pos m))%Z.
    { apply (Z.pow_lt_mono_r_iff 2); lia. }
    assert (Z.pos (digits2_pos m) - 1 < Z.pos p + 1)%Z.
    { apply (Z.pow_lt_mono_r_iff 2); try lia.
      rewrite Z.pow_add_r by lia. lia. }
    lia. }
  rewrite Hd in Hc. lia.
Qed.

Lemma Q_window (q X delta L U : Q) :
  (Qabs (q - X) <= delta)%Q -> (L < X - delta)%Q -> (X + delta < U)%Q ->
  (L < q)%Q /\ (q < U)%Q.
Proof.
  intros H HL HU. apply Qabs_Qle_condition in H. destruct H as [H1 H2]. split.
  - apply Qlt_le_trans with (X - delta)%Q; [assumption|].
    apply (Qplus_le_l _ _ (- X)%Q).
    setoid_replace (X - delta + - X)%Q with (- delta)%Q by ring. exact H1.
  - apply Qle_lt_trans with (X + delta)%Q; [|assumption].
    apply (Qplus_le_l _ _ (- X)%Q).
    setoid_replace (X + delta + - X)%Q with delta by ring. exact H2.
Qed.

(** The floats within [2^-50] of the exact value of [1.00625 ^ 60] are
    the correctly rounded power and four floats on each side of it. *)
Lemma pow_window (y : float) :
  Binary64.pow_accurate (1 # 2 ^ 50) (1 + 7.5 / 12 / 100) 60 y ->
  In y (Binary64.neighbours 4 (Binary64.pow_rounded (1 + 7.5 / 12 / 100) 60)).
Proof.
  unfold Binary64.pow_accurate.
  destruct (Binary64.to_Q (1 + 7.5 / 12 / 100)) as [qx|] eqn:Hx;
    [|contradiction].
  vm_compute in Hx. injection Hx as <-.
  destruct (Binary64.to_Q y) as [qy|] eqn:Hy; [|contradiction].
  intros Hacc.
  apply (@Q_window _ _ _ (6545056155573676 # 2 ^ 52) (6545056155573686 # 2 ^ 52))
    in Hacc; [|vm_compute; reflexivity|vm_compute; reflexivity].
  destruct Hacc as [HL HU].
  unfold Binary64.to_Q in Hy. pose proof (Prim2SF_valid y) as Hv.
  rewrite <- (SF2Prim_Prim2SF y).
  destruct (Prim2SF y) as [sz| | |s m e]; try discriminate;
    injection Hy as <-; unfold Qlt in HL, HU; cbn [Qnum Qden inject_Z] in HL, HU.
  - exfalso. lia.
  - cbn [valid_binary] in Hv. destruct e as [|p|p].
    + exfalso. destruct s; cbn [Qnum Qden inject_Z] in HL, HU; lia.
    + exfalso. cbn [Qnum Qden inject_Z] in HL, HU.
      revert HL HU.
      generalize ((if s then Z.neg m else Z.pos m) * 2 ^ Z.pos p)%Z.
      intros w HL HU. lia.
    + cbn [Qnum Qden] in HL, HU. destruct s; [exfalso; lia|].
      change (Z.pos (2 ^ 52)) with 4503599627370496%Z in HL, HU.
      assert (Hp : p = 52%positive).
      { apply (@binade_1_2 m p Hv). rewrite <- Pos2Z.inj_pow. lia. }
      subst p. change (Z.pos (2 ^ 52)) with 4503599627370496%Z in HL, HU.
      assert (Hm : In (Z.pos m)
                [6545056155573677; 6545056155573678; 6545056155573679;
                 6545056155573680; 6545056155573681; 6545056155573682;
                 6545056155573683; 6545056155573684; 6545056155573685]%Z).
      { cbn [In]. lia. }
      cbn [In] in Hm.
      repeat (destruct Hm as [Hm|Hm]; [injection Hm as <-; vm_compute; tauto|]).
      contradiction.
Qed.

(** C7.  Principal 20000, 7.5% a year, 60 months, in binary64
    arithmetic, for every C library whose [pow] returns [1.00625 ** 60]
    with an error of at most [2^-50] (four units in the last place): the
    schedule has 60 entries, the balance recorded for month 60 is within
    1e-6 of 0, and the sum of the 60 principal payments, exact or added
    up in floats, is within 1e-6 of 20000. *)
Theorem amortization_20000_closes (libm_pow : float -> Z -> float) :
  let x := 1 + 7.5 / 12 / 100 in
  Binary64.pow_accurate (1 # 2 ^ 50) x 60 (libm_pow x 60%Z) ->
  exists (l : Binary64.loan) (s : Binary64.loop_state),
    Binary64.compute_loan libm_pow 20000 7.5 60 true = Ok l /\
    Binary64.schedule l = Some s /\
    Binary64.months s = range 1 61 /\
    length (Binary64.principals s) = 60%nat /\
    length (Binary64.balances s) = 60%nat /\
    Binary64.within (1 / 1000000) 0
      (Binary64.to_Q (nth 59 (Binary64.balances s) nan)) = true /\
    Binary64.within (1 / 1000000) 20000
      (Binary64.exact_sum (Binary64.principals s)) = true /\
    Binary64.within (1 / 1000000) 20000
      (Binary64.to_Q (Binary64.py_sum (Binary64.principals s))) = true.
Proof.
  intros x H. apply pow_window in H.
  rewrite (@compute_loan_pow_value libm_pow 20000 7.5 60%Z true (libm_pow x 60%Z))
    by (f_equal; vm_compute; reflexivity).
  revert H. subst x. generalize (libm_pow (1 + 7.5 / 12 / 100) 60%Z).
  clear libm_pow. intros q H.
  vm_compute in H.
  repeat (destruct H as [H|H]; [subst q|]); [..|contradiction];
    (match goal with
     | |- context [Binary64.compute_loan ?f ?p ?r ?n ?b] =>
         set (res := Binary64.compute_loan f p r n b); vm_compute in res
     end;
     subst res; eexists; eexists;
     split; [reflexivity|]; split; [reflexivity|];
     repeat split; vm_compute; reflexivity).
Qed.

Lemma amortization_20000_closes_witness :
  exists (l : Binary64.loan) (s : Binary64.loop_state),
    Binary64.compute_loan Binary64.pow_rounded 20000 7.5 60 true = Ok l /\
    Binary64.schedule l = Some s /\
    Binary64.months s = range 1 61 /\
    length (Binary64.principals s) = 60%nat /\
    length (Binary64.balances s) = 60%nat /\
    Binary64.within (1 / 1000000) 0
      (Binary64.to_Q (nth 59 (Binary64.balances s) nan)) = true /\
    Binary64.within (1 / 1000000) 20000
      (Binary64.exact_sum (Binary64.principals s)) = true /\
    Binary64.within (1 / 1000000) 20000
      (Binary64.to_Q (Binary64.py_sum (Binary64.principals s))) = true.
Proof.
  apply (amortization_20000_closes Binary64.pow_rounded).
  vm_compute. intros H. discriminate H.
Defined.

(** Comparing equal to [1.0] is being [1.0]. *)
Lemma float_eqb_one (x : float) : (x =? 1) = true -> x = 1.
Proof.
  intros H. rewrite FloatAxioms.eqb_spec in H. apply Prim2SF_inj.
  change (Prim2SF 1) with (S754_finite false 4503599627370496 (-52)) in *.
  unfold SFeqb, SFcompare in H.
  destruct (Prim2SF x) as [s|s| |s m e]; try destruct s; try discriminate.
  destruct (Z.compare_spec e (-52)%Z) as [He|He|He]; try discriminate.
  subst e.
  destruct (PosDef.Pos.compare_cont Eq m 4503599627370496) eqn:Hc;
    try discriminate.
  apply (Pos.compare_eq m) in Hc. now subst m.
Qed.

(** Where the guard of the EMI formula falls short: a monthly rate that
    is not zero but vanishes when added to [1.0] leads to a division by
    zero, for every tenure but 0 and whatever [pow] the platform has. *)
Lemma emi_absorbed_rate (libm_pow : float -> Z -> float)
    (principal monthly_rate : float) (n : Z) :
  (monthly_rate =? 0) = false -> (1 + monthly_rate =? 1) = true -> n <> 0%Z ->
  Binary64.emi_formula libm_pow principal monthly_rate n
  = Raise ZeroDivisionError.
Proof.
  intros Hnz Habs Hn. unfold Binary64.emi_formula. rewrite Hnz.
  apply float_eqb_one in Habs. rewrite Habs.
  unfold Binary64.float_pow_int.
  destruct (n =? 0)%Z eqn:Hn0; [apply Z.eqb_eq in Hn0; contradiction|].
  reflexivity.
Qed.


End Binary64Loan.

(** ** The specification's test values *)

(** A goal of 10000 with savings of 500 a month and no interest takes 20
    months: one year and eight months. *)
Example savings_20_months :
  exists p : SavingsGoal.projection,
    SavingsGoal.savings_goal 0%Z 10000 500 0 0 0
    = Ok (SavingsGoal.time_to_reach_goal p) /\
    SavingsGoal.months p = 20%Z /\
    SavingsGoal.years p = 1%Z /\
    SavingsGoal.remaining_months p = 8%Z /\
    length (SavingsGoal.amounts (SavingsGoal.series p)) = 21%nat.
Proof.
  pose proof (@months_needed_defined (10000 - 0) 500 0 0) as Hm.
  cbv zeta in Hm. unfold Spec.monthlyRate in Hm.
  specialize (Hm ltac:(lra) ltac:(lra) ltac:(lra) ltac:(lra)).
  replace (Z.max 1 _) with 20%Z in Hm.
  - eexists. split.
    + apply (savings_goal_projection 0%Z); [lra|lra|exact Hm|lia].
    + repeat split.
  - unfold Spec.monthsFormula. destruct (Req_dec_T _ 0) as [_|Hnz]; [|lra].
    rewrite (@Zceil_eq 20); [reflexivity|lra].
Qed.

(** A loan of 20000 over 60 months without interest costs 20000/60 a
    month and no interest. *)
Example loan_without_interest :
  exists l : EmiCalculator.loan,
    EmiCalculator.compute_loan 20000 0 60 false = Ok l /\
    EmiCalculator.emi l = 20000 / 60 /\
    EmiCalculator.total_interest l = 0.
Proof.
  assert (Hemi : EmiCalculator.emi_formula 20000 (0 / 12 / 100) 60
                 = Ok (20000 / 60)).
  { replace (0 / 12 / 100) with 0 by lra.
    apply emi_formula_zero_rate. lia. }
  destruct (@compute_loan_of_emi _ _ _ _ false Hemi) as [l [Hl [He [_ [Hi _]]]]].
  exists l. repeat split; try assumption. rewrite Hi. lra.
Qed.

(** Without contributions, return and inflation the investment keeps its
    value, nominal and real, in every month. *)
Example investment_stays_constant (initial_investment : R) (years : Z) :
  (0 <= years)%Z ->
  exists sim : InvestmentSimulator.simulation,
    InvestmentSimulator.investment_simulator 0%Z initial_investment 0 years 0 0
    = Ok sim /\
    forall m : nat, (Z.of_nat m <= years * 12)%Z ->
      nth m (InvestmentSimulator.nominal_values (InvestmentSimulator.series sim)) 0
      = initial_investment /\
      nth m (InvestmentSimulator.real_values (InvestmentSimulator.series sim)) 0
      = initial_investment.
Proof.
  intros Hyears.
  destruct (@twelfth_root (1 + 0 / 100)) as [Hp _]; [lra|].
  assert (H1 : Rpower (1 + 0 / 100) (1 / 12) = 1).
  { unfold Rpower. replace (1 + 0 / 100) with 1 by lra.
    now rewrite ln_1, Rmult_0_r, exp_0. }
  rewrite H1 in Hp.
  eexists. split.
  - apply (investment_simulator_of_rates 0%Z initial_investment 0 0 0 Hp Hp);
      [lra|lia].
  - intros m Hm.
    cbn [InvestmentSimulator.series InvestmentSimulator.nominal_values
         InvestmentSimulator.real_values].
    rewrite !nth_map_seq by lia.
    split; (induction m as [|m IH]; [reflexivity|];
            rewrite Nat.iter_succ, IH by lia; field).
Qed.

(** * Further properties of the script *)

(** ** Tab 1: the expense distribution *)

Lemma dict_set_new (d : dict) (k : string) (v : R) :
  ~ In k (map fst d) -> dict_set d k v = d ++ [(k, v)].
Proof.
  induction d as [|[k' v'] d IH]; intros Hk; [reflexivity|].
  cbn [dict_set]. destruct (String.eqb_spec k' k) as [->|_].
  - exfalso. apply Hk. now left.
  - cbn [app]. f_equal. apply IH. intros H. apply Hk. now right.
Qed.

(** The comprehension of line 73 on a dict, whose keys are distinct, is a
    filter: the items with a positive amount, in their order. *)
Lemma filtered_expenses_filter (expenses : dict) :
  NoDup (map fst expenses) ->
  filtered_expenses expenses
  = filter (fun kv => if Rlt_dec 0 (snd kv) then true else false) expenses.
Proof.
  unfold filtered_expenses.
  set (keep := fun kv : string * R => if Rlt_dec 0 (snd kv) then true else false).
  assert (H : forall l acc, NoDup (map fst l) ->
              (forall k, In k (map fst l) -> ~ In k (map fst acc)) ->
              fold_left
                (fun filtered '(k, v) =>
                   if Rlt_dec 0 v then dict_set filtered k v else filtered) l acc
              = acc ++ filter keep l).
  { induction l as [|[k v] l IH]; intros acc Hnd Hacc.
    - cbn. now rewrite app_nil_r.
    - cbn [fold_left filter]. inversion Hnd as [|? ? Hk Hnd']; subst.
      unfold keep at 1. cbn [snd]. destruct (Rlt_dec 0 v).
      + rewrite dict_set_new by (apply Hacc; now left).
        rewrite IH; [now rewrite <- app_assoc|assumption|].
        intros k' Hk'. rewrite map_app, in_app_iff. cbn [map fst In].
        intros [Hin|[->|[]]]; [|contradiction].
        apply (Hacc k'); [now right|assumption].
      + apply IH; [assumption|]. intros k' Hk'. apply Hacc. now right. }
  intros Hnd. now rewrite H.
Qed.

Lemma sum_filter_positive (l : dict) :
  Forall (fun kv => 0 <= snd kv) l ->
  fold_right Rplus 0
    (map snd (filter (fun kv => if Rlt_dec 0 (snd kv) then true else false) l))
  = fold_right Rplus 0 (map snd l).
Proof.
  induction 1 as [|[k v] l Hv _ IH]; [reflexivity|].
  cbn [filter map fold_right snd] in *. destruct (Rlt_dec 0 v).
  - cbn [map fold_right snd]. now rewrite IH.
  - rewrite IH. lra.
Qed.

Lemma sum_nonneg_zero (l : list R) :
  Forall (fun v => 0 <= v) l ->
  0 <= fold_right Rplus 0 l /\
  (fold_right Rplus 0 l = 0 <-> Forall (fun v => v = 0) l).
Proof.
  induction 1 as [|v l Hv _ [IH0 IH]]; cbn [fold_right].
  - split; [lra|]. split; auto.
  - split; [lra|]. split.
    + intros H. constructor; [lra|]. apply IH. lra.
    + intros H. inversion H; subst. apply IH in H3. lra.
Qed.

(** X1.  On a dict of expenses (distinct keys) the charts of tab 1 are
    drawn over exactly the items with a positive amount; when no amount is
    negative, as the input fields ensure, the amounts in the charts add up
    to the total expenses of the summary. *)
Theorem charts_cover_total (income : R) (expenses : dict) :
  NoDup (map fst expenses) ->
  (forall k v, In (k, v) (filtered_expenses expenses)
               <-> In (k, v) expenses /\ 0 < v) /\
  (Forall (fun kv => 0 <= snd kv) expenses ->
   py_sum (dict_values (filtered_expenses expenses))
   = total_expenses (budget_tracker income expenses)).
Proof.
  intros Hnd. rewrite (@filtered_expenses_filter expenses Hnd). split.
  - intros k v. rewrite filter_In. cbn [snd].
    destruct (Rlt_dec 0 v); intuition discriminate.
  - intros Hpos. unfold budget_tracker, py_sum, dict_values.
    cbn [total_expenses]. rewrite !fold_left_Rplus.
    now rewrite (sum_filter_positive Hpos).
Qed.

Lemma expense_categories_keys (number_input : string -> R -> R) :
  NoDup (map fst (read_expenses number_input)).
Proof.
  rewrite read_expenses_items. cbn.
  repeat (constructor; [cbn; intuition discriminate|]). constructor.
Qed.

Lemma charts_cover_total_witness :
  py_sum (dict_values (filtered_expenses (read_expenses (fun _ _ => 10))))
  = total_expenses (budget_tracker 3000 (read_expenses (fun _ _ => 10))).
Proof.
  apply (@charts_cover_total 3000 _ (expense_categories_keys (fun _ _ => 10))).
  rewrite read_expenses_items. cbn.
  repeat (constructor; [cbn; lra|]). constructor.
Defined.

(** X2.  When no amount is negative, the warning "No expenses entered
    yet!" replaces the charts exactly when the total expenses are 0. *)
Theorem warning_iff_no_expenses (income : R) (expenses : dict) :
  NoDup (map fst expenses) ->
  Forall (fun kv => 0 <= snd kv) expenses ->
  (expense_charts expenses = st_warning "No expenses entered yet!"
   <-> total_expenses (budget_tracker income expenses) = 0).
Proof.
  intros Hnd Hpos. unfold expense_charts.
  rewrite (@filtered_expenses_filter expenses Hnd).
  unfold budget_tracker, py_sum, dict_values. cbn [total_expenses].
  rewrite fold_left_Rplus, Rplus_0_l.
  assert (Hv : Forall (fun v => 0 <= v) (map snd expenses)).
  { apply Forall_map. exact Hpos. }
  destruct (sum_nonneg_zero Hv) as [_ ->].
  clear Hnd Hv. induction Hpos as [|[k v] l Hv Hl IH]; cbn [filter map snd].
  - split; intros; [constructor|reflexivity].
  - cbn [snd] in Hv. destruct (Rlt_dec 0 v).
    + split; [discriminate|]. intros H. inversion H; subst. lra.
    + rewrite IH. split.
      * intros H. constructor; [lra|assumption].
      * intros H. now inversion H.
Qed.

Lemma warning_iff_no_expenses_witness :
  expense_charts (read_expenses (fun _ default_val => default_val))
  = st_warning "No expenses entered yet!"
  <-> total_expenses
        (budget_tracker 3000 (read_expenses (fun _ default_val => default_val)))
      = 0.
Proof.
  apply (@warning_iff_no_expenses 3000 _
           (expense_categories_keys (fun _ default_val => default_val))).
  rewrite read_expenses_items. cbn.
  repeat (constructor; [cbn; lra|]). constructor.
Defined.

(** ** Tab 2: what the projection says about the goal *)

Lemma months_needed_at_least_1
    (remaining monthly_savings interest_rate inflation_rate monthly_rate : R)
    (months : Z) :
  SavingsGoal.months_needed remaining monthly_savings interest_rate inflation_rate
  = Ok (monthly_rate, months) ->
  (1 <= months)%Z.
Proof.
  unfold SavingsGoal.months_needed.
  destruct (float_div _ _) as [q|]; [|discriminate]. cbn [bind].
  destruct (if Req_dec_T _ 0 then _ else _) as [x|]; [|discriminate].
  cbn [bind]. destruct (py_int _) as [c|]; [|discriminate]. cbn [bind].
  intros H. injection H as _ <-. lia.
Qed.

(** A run that shows a projection has passed both guards and computed a
    number of months; the projection is the closed form over them. *)
Lemma savings_goal_inv (now : datetime)
    (goal_amount monthly_savings current_savings interest_rate inflation_rate : R)
    (p : SavingsGoal.projection) :
  SavingsGoal.savings_goal now goal_amount monthly_savings current_savings
    interest_rate inflation_rate = Ok (SavingsGoal.time_to_reach_goal p) ->
  let f := fun a =>
    a * (1 + Spec.monthlyRate (interest_rate / 100) (inflation_rate / 100))
    + monthly_savings in
  (1 <= SavingsGoal.months p)%Z /\
  SavingsGoal.years p = (SavingsGoal.months p / 12)%Z /\
  SavingsGoal.remaining_months p = (SavingsGoal.months p mod 12)%Z /\
  SavingsGoal.dates (SavingsGoal.series p)
  = map (fun i => (now + Z.of_nat i * timedelta_days 30)%Z)
        (seq 0 (S (Z.to_nat (SavingsGoal.months p)))) /\
  SavingsGoal.amounts (SavingsGoal.series p)
  = map (fun i => Nat.iter i f current_savings)
        (seq 0 (S (Z.to_nat (SavingsGoal.months p)))) /\
  SavingsGoal.final_amount p
  = Nat.iter (Z.to_nat (SavingsGoal.months p)) f current_savings.
Proof.
  intros H f.
  assert (Hg : 0 < monthly_savings /\ 0 < goal_amount - current_savings).
  { unfold SavingsGoal.savings_goal in H.
    destruct (Rle_dec monthly_savings 0); [discriminate|].
    destruct (Rle_dec (goal_amount - current_savings) 0); [discriminate|]. lra. }
  destruct Hg as [Hs Hr].
  destruct (SavingsGoal.months_needed (goal_amount - current_savings)
              monthly_savings interest_rate inflation_rate)
    as [[r m]|e] eqn:Hm.
  - pose proof (months_needed_at_least_1 _ _ _ _ Hm) as Hm1.
    assert (Hrate : r = Spec.monthlyRate (interest_rate / 100) (inflation_rate / 100)).
    { unfold SavingsGoal.months_needed, float_div in Hm.
      destruct (Req_dec_T (1 + inflation_rate / 100) 0); [discriminate|].
      cbn [bind] in Hm.
      destruct (if Req_dec_T _ 0 then _ else _) as [x|]; [|discriminate].
      cbn [bind] in Hm. destruct (py_int _) as [c|]; [|discriminate].
      cbn [bind] in Hm. injection Hm as <- _. reflexivity. }
    rewrite (@savings_goal_projection now goal_amount monthly_savings
               current_savings interest_rate inflation_rate r m Hs Hr Hm)
      in H by lia.
    remember (S (Z.to_nat m)) as k eqn:Hk in H.
    injection H as <-. subst k r. cbn. repeat split; try reflexivity. exact Hm1.
  - exfalso. unfold SavingsGoal.savings_goal in H.
    destruct (Rle_dec monthly_savings 0); [lra|].
    destruct (Rle_dec (goal_amount - current_savings) 0); [lra|].
    rewrite Hm in H. discriminate.
Qed.

(** X3.  Whenever tab 2 reports a time to the goal: the number of months
    is at least 1 and equals [12 * years + remaining_months] with
    [0 <= remaining_months < 12]; the projection has [months + 1] points, 30 days
    apart from the instant of the run, starts at the current savings and
    ends at the reported final amount. *)
Theorem time_to_goal_report (now : datetime)
    (goal_amount monthly_savings current_savings interest_rate inflation_rate : R)
    (p : SavingsGoal.projection) :
  SavingsGoal.savings_goal now goal_amount monthly_savings current_savings
    interest_rate inflation_rate = Ok (SavingsGoal.time_to_reach_goal p) ->
  let s := SavingsGoal.series p in
  let months := SavingsGoal.months p in
  (1 <= months)%Z /\
  months = (12 * SavingsGoal.years p + SavingsGoal.remaining_months p)%Z /\
  (0 <= SavingsGoal.remaining_months p < 12)%Z /\
  Z.of_nat (length (SavingsGoal.amounts s)) = (months + 1)%Z /\
  Z.of_nat (length (SavingsGoal.dates s)) = (months + 1)%Z /\
  (forall i : nat, (Z.of_nat i <= months)%Z ->
     nth i (SavingsGoal.dates s) 0%Z = (now + Z.of_nat i * timedelta_days 30)%Z) /\
  nth 0 (SavingsGoal.amounts s) 0 = current_savings /\
  nth (Z.to_nat months) (SavingsGoal.amounts s) 0 = SavingsGoal.final_amount p.
Proof.
  intros H. destruct (savings_goal_inv _ _ _ _ _ _ H)
    as [Hm [Hy [Hrm [Hd [Ha Hf]]]]].
  cbv zeta. rewrite Hy, Hrm, Hd, Ha, Hf, !length_map, !length_seq.
  split; [exact Hm|]. split; [apply Z.div_mod; lia|].
  split; [apply Z.mod_pos_bound; lia|].
  split; [lia|]. split; [lia|]. split; [|split].
  - intros i Hi. now rewrite nth_map_seq by lia.
  - now rewrite nth_map_seq by lia.
  - now rewrite nth_map_seq by lia.
Qed.

Lemma time_to_goal_report_witness :
  exists p : SavingsGoal.projection,
    SavingsGoal.savings_goal 0%Z 10000 500 0 0 0
    = Ok (SavingsGoal.time_to_reach_goal p) /\
    (1 <= SavingsGoal.months p)%Z /\
    SavingsGoal.months p
    = (12 * SavingsGoal.years p + SavingsGoal.remaining_months p)%Z.
Proof.
  destruct savings_20_months as [p [Hp _]]. exists p. split; [exact Hp|].
  split; apply (time_to_goal_report _ _ _ _ _ _ Hp).
Defined.















(** ** Tab 3: the schedule as a whole *)











Section RunningBalance.

Variables principal emi monthly_rate : R.
Variable n : Z.
Hypothesis principal_pos : 0 < principal.
Hypothesis rate_nonneg : 0 <= monthly_rate.
Hypothesis tenure_pos : (1 <= n)%Z.
Hypothesis emi_of_formula :
  EmiCalculator.emi_formula principal monthly_rate n = Ok emi.

Let B := fun i => Nat.iter i (fun b => b - (emi - b * monthly_rate)) principal.





End RunningBalance.





(** ** Tab 4: how the three curves lie to each other *)

(** A simulation that returned, in closed form: [p] and [p'] are the
    monthly factors of return and inflation. *)
Lemma investment_simulator_closed (now : datetime)
    (initial_investment monthly_contribution : R) (years : Z)
    (annual_return annual_inflation : R) (sim : InvestmentSimulator.simulation) :
  InvestmentSimulator.investment_simulator now initial_investment
    monthly_contribution years annual_return annual_inflation = Ok sim ->
  exists p p' : R,
    float_pow (1 + annual_return / 100) (1 / 12) = Ok p /\
    float_pow (1 + annual_inflation / 100) (1 / 12) = Ok p' /\
    p' <> 0 /\ (0 <= years)%Z /\
    let fn := fun v => v * p + monthly_contribution in
    let fr := fun v => v * (p / p') + monthly_contribution in
    let fc := fun c => c + monthly_contribution in
    let m := Z.to_nat (years * 12) in
    let s := InvestmentSimulator.series sim in
    InvestmentSimulator.months sim = (years * 12)%Z /\
    InvestmentSimulator.nominal_values s
    = map (fun i => Nat.iter i fn initial_investment) (seq 0 (S m)) /\
    InvestmentSimulator.real_values s
    = map (fun i => Nat.iter i fr initial_investment) (seq 0 (S m)) /\
    InvestmentSimulator.contributions s
    = map (fun i => Nat.iter i fc initial_investment) (seq 0 (S m)) /\
    InvestmentSimulator.final_nominal sim = Nat.iter m fn initial_investment /\
    InvestmentSimulator.final_real sim = Nat.iter m fr initial_investment /\
    InvestmentSimulator.total_contributed sim = Nat.iter m fc initial_investment /\
    InvestmentSimulator.growth_nominal sim
    = InvestmentSimulator.final_nominal sim
      - InvestmentSimulator.total_contributed sim /\
    InvestmentSimulator.growth_real sim
    = InvestmentSimulator.final_real sim
      - InvestmentSimulator.total_contributed sim.
Proof.
  intros Hsim.
  destruct (investment_simulator_inv _ _ _ _ _ _ Hsim)
    as [p [p' [Hp [Hp' [Hinfl Hyears]]]]].
  exists p, p'. split; [exact Hp|]. split; [exact Hp'|].
  split; [lra|]. split; [exact Hyears|].
  rewrite (investment_simulator_of_rates now initial_investment
             monthly_contribution annual_return annual_inflation Hp Hp'
             Hinfl Hyears) in Hsim.
  remember (S (Z.to_nat (years * 12))) as k eqn:Hk in Hsim.
  injection Hsim as <-. cbv zeta.
  cbn [InvestmentSimulator.series InvestmentSimulator.months
       InvestmentSimulator.contributions InvestmentSimulator.nominal_values
       InvestmentSimulator.real_values InvestmentSimulator.total_contributed
       InvestmentSimulator.final_nominal InvestmentSimulator.final_real
       InvestmentSimulator.growth_nominal InvestmentSimulator.growth_real].
  subst k.
  assert (Hfn : forall i,
    Nat.iter i (fun v => v * (1 + (p - 1)) + monthly_contribution)
      initial_investment
    = Nat.iter i (fun v => v * p + monthly_contribution) initial_investment).
  { induction i as [|i IH]; [reflexivity|]. rewrite !Nat.iter_succ, IH.
    replace (1 + (p - 1)) with p by lra. reflexivity. }
  assert (Hfr : forall i,
    Nat.iter i
      (fun v => v * (1 + ((1 + (p - 1)) / (1 + (p' - 1)) - 1))
                + monthly_contribution) initial_investment
    = Nat.iter i (fun v => v * (p / p') + monthly_contribution)
        initial_investment).
  { induction i as [|i IH]; [reflexivity|]. rewrite !Nat.iter_succ, IH.
    replace (1 + (p - 1)) with p by ring. replace (1 + (p' - 1)) with p' by ring.
    replace (1 + (p / p' - 1)) with (p / p') by ring. reflexivity. }
  rewrite (map_ext _ _ Hfn), (map_ext _ _ Hfr), Hfn, Hfr.
  repeat (split; [reflexivity|]). reflexivity.
Qed.

Lemma float_pow_twelfth_nonneg (x p : R) :
  float_pow x (1 / 12) = Ok p -> 0 <= p /\ (1 <= x -> 1 <= p).
Proof.
  unfold float_pow. destruct (Rlt_dec 0 x) as [Hx|Hx].
  - intros H. injection H as <-. split; [left; apply exp_pos|].
    intros H1. apply Rle_trans with (Rpower x 0).
    + rewrite Rpower_O by assumption. lra.
    + apply Rle_Rpower; lra.
  - destruct (Req_dec_T x 0); [|discriminate].
    destruct (Rlt_dec 0 (1 / 12)); [|lra].
    intros H. injection H as <-. split; [lra|intros; lra].
Qed.

Lemma iter_affine_nonneg (a c v : R) (k : nat) :
  0 <= a -> 0 <= c -> 0 <= v -> 0 <= Nat.iter k (fun v => v * a + c) v.
Proof.
  intros Ha Hc Hv. induction k as [|k IH]; [assumption|].
  rewrite Nat.iter_succ. pose proof (Rmult_le_pos _ _ IH Ha). lra.
Qed.

Lemma iter_affine_monotone (a b c v : R) (k : nat) :
  0 <= a <= b -> 0 <= c -> 0 <= v ->
  Nat.iter k (fun v => v * a + c) v <= Nat.iter k (fun v => v * b + c) v.
Proof.
  intros [Ha Hab] Hc Hv. induction k as [|k IH]; [apply Rle_refl|].
  rewrite !Nat.iter_succ.
  pose proof (@iter_affine_nonneg a c v k Ha Hc Hv) as H0.
  assert (Nat.iter k (fun v => v * a + c) v * a
          <= Nat.iter k (fun v => v * b + c) v * b).
  { apply Rmult_le_compat; assumption. }
  lra.
Qed.





Lemma iter_affine_one (c v : R) (k : nat) :
  Nat.iter k (fun v => v * 1 + c) v = Nat.iter k (fun t => t + c) v.
Proof.
  induction k as [|k IH]; [reflexivity|]. rewrite !Nat.iter_succ, IH. ring.
Qed.

(** X12.  With an initial investment and a contribution that are not
    negative and a yearly return >= 0, the nominal curve never lies below
    the dashed line of the contributions, and the nominal growth of the
    summary is not negative. *)
Theorem nominal_value_covers_contributions (now : datetime)
    (initial_investment monthly_contribution : R) (years : Z)
    (annual_return annual_inflation : R) (sim : InvestmentSimulator.simulation) :
  InvestmentSimulator.investment_simulator now initial_investment
    monthly_contribution years annual_return annual_inflation = Ok sim ->
  0 <= initial_investment -> 0 <= monthly_contribution ->
  0 <= annual_return ->
  let s := InvestmentSimulator.series sim in
  (forall m : nat, (Z.of_nat m <= InvestmentSimulator.months sim)%Z ->
     nth m (InvestmentSimulator.contributions s) 0
     <= nth m (InvestmentSimulator.nominal_values s) 0) /\
  InvestmentSimulator.total_contributed sim
  <= InvestmentSimulator.final_nominal sim /\
  0 <= InvestmentSimulator.growth_nominal sim.
Proof.
  intros Hsim Hinit Hcontrib Hret.
  destruct (@investment_simulator_closed now initial_investment
              monthly_contribution years annual_return annual_inflation sim Hsim)
    as [p [p' [Hp [Hp' [Hnz [Hyears H]]]]]].
  cbv zeta in H.
  destruct H as [Hm [Hn [_ [Hc [Hfn [_ [Hfc [Hgn _]]]]]]]].
  destruct (@float_pow_twelfth_nonneg _ _ Hp) as [_ Hp1].
  specialize (Hp1 ltac:(lra)).
  assert (Hle : forall k,
    Nat.iter k (fun c => c + monthly_contribution) initial_investment
    <= Nat.iter k (fun v => v * p + monthly_contribution) initial_investment).
  { intros k. rewrite <- iter_affine_one.
    apply iter_affine_monotone; [lra|assumption|assumption]. }
  cbv zeta. rewrite Hm, Hn, Hc, Hgn, Hfn, Hfc. split; [|split].
  - intros m Hle'. rewrite !nth_map_seq by lia. apply Hle.
  - apply Hle.
  - pose proof (Hle (Z.to_nat (years * 12))). lra.
Qed.

Lemma nominal_value_covers_contributions_witness :
  exists sim : InvestmentSimulator.simulation,
    InvestmentSimulator.investment_simulator 0%Z 1000 100 10 7 2.5 = Ok sim /\
    0 <= InvestmentSimulator.growth_nominal sim.
Proof.
  destruct (@investment_simulator_total 0%Z 1000 100 10 7 2.5) as [sim Hsim];
    [lra|lra|lia|].
  exists sim. split; [exact Hsim|].
  apply (@nominal_value_covers_contributions 0%Z 1000 100 10 7 2.5 sim Hsim);
    lra.
Defined.



(** ** The page as a whole *)




(** X15.  A click on the report button never brings the download button.
    In the run of that click the simulation button is not clicked (a
    button is true only in the run of its own click), so the variable
    [final_nominal], which only the simulation assigns, is unbound when
    the text of the report is formatted: the run ends in a [NameError] on
    it, unless a computation of tab 2 or tab 3 has already ended it. *)
Theorem report_needs_simulation (now2 now4 : datetime) (w : Page.widgets) :
  Page.report_button w = true -> Page.simulate_button w = false ->
  let r := Page.run_script now2 now4 w in
  (Page.failure r = Some (Page.NameError "final_nominal") \/
   exists e : exn, Page.failure r = Some (Page.Exception e)) /\
  (forall rep : Page.report, ~ In (Page.download_button rep) (Page.shown r)).
Proof.
  intros Hrep Hsim. unfold Page.run_script. cbv zeta. rewrite Hrep, Hsim.
  destruct (if Page.calculate_button w then _ else _) as [o|e].
  - destruct (EmiCalculator.emi_calculator _ _ _ _ _) as [l|e];
      cbn [Page.failure Page.shown].
    + split; [now left|]. intros rep Hin.
      rewrite !in_app_iff in Hin. cbn [In] in Hin.
      destruct o; cbn [In] in Hin; intuition discriminate.
    + split; [right; now exists e|]. intros rep Hin.
      rewrite !in_app_iff in Hin. cbn [In] in Hin.
      destruct o; cbn [In] in Hin; intuition discriminate.
  - cbn [Page.failure Page.shown]. split; [right; now exists e|].
    intros rep Hin. cbn [In] in Hin. intuition discriminate.
Qed.

Lemma report_needs_simulation_witness :
  Page.failure (Page.run_script 0%Z 0%Z (Page.defaults false false true))
  = Some (Page.NameError "final_nominal") \/
  exists e : exn,
    Page.failure (Page.run_script 0%Z 0%Z (Page.defaults false false true))
    = Some (Page.Exception e).
Proof.
  apply (@report_needs_simulation 0%Z 0%Z (Page.defaults false false true));
    reflexivity.
Defined.


